(** * github-recs: the model loader and the recommendation wrapper of app.go

    A shallow embedding of [ReadModel] and [Model.Recommend] from src/app.go.
    The vector model library (github.com/jbochi/facts/vectormodel) and the
    npy reader (github.com/kshedden/gonpy) are external packages; they enter
    as section variables: an abstract float type, an abstract vector-model
    type, the constructor [newVectorModel] and the ranking [vmRecommend].
    Go strings are modelled as [string]; map[string]int as [gmap string nat];
    map[int]bool whose values are all [true] as [gset nat]. *)

From Stdlib Require Import QArith Ascii String.
From stdpp Require Import base gmap strings list.

Open Scope string_scope.

(** The byte '\n'. *)
Definition newline : ascii := "010"%char.

(** Outcome of a Go call: a value, a returned error, or a run-time panic
    (index or slice out of range). *)
Inductive outcome (E A : Type) : Type :=
| Ok (a : A)
| Err (e : E)
| Panic.
Arguments Ok {E A} a.
Arguments Err {E A} e.
Arguments Panic {E A}.


Section GithubRecs.

(** float64 values of the factor array and the scores. *)
Context {float64 : Type}.
(** *vectormodel.VectorModel and the errors of the vectormodel package. *)
Context {VectorModel VMError : Type}.
(** vectormodel.NewVectorModel(docs, confidence, regularization). *)
Context (newVectorModel : gmap nat (list float64) -> Q -> Q -> VMError + VectorModel).

(** vectormodel.DocumentScore. *)
Record DocumentScore := { DocumentID : Z; DocScore : float64 }.

(** VectorModel.Recommend(&seenDocs, n), a method on the pointer type. *)
Context (vmRecommend : VectorModel -> gset nat -> Z -> VMError + list DocumentScore).

(** The part of a gonpy reader that ReadModel uses: the header's shape and
    the result of GetFloat64 ([None] models a returned error). *)
Record NpyReader := { Shape : list nat; GetFloat64 : option (list float64) }.

(** The two files under [path]: item_factors.npy as the result of
    gonpy.NewFileReader ([None] = error) and items.csv as the result of
    os.Open ([None] = error) with its contents. *)
Record Files := { item_factors_npy : option NpyReader; items_csv : option string }.

(** The errors ReadModel returns, one per fmt.Errorf site, plus the
    vectormodel error passed through unchanged. *)
Inductive LoadError :=
| UnableToReadData
| UnableToParseData
| VectorModelError (e : VMError)
| UnableToOpenItems
| UnableToReadLine.

Record Model := {
  vm : VectorModel;
  repositories : list string;
  repositoryIDs : gmap string nat
}.

Record RepositoryScore := { Repository : string; Score : float64 }.

(** Go's rdr.Shape[k]: panics when the shape has fewer entries. *)
Definition index_shape (s : list nat) (k : nat) : option nat := s !! k.

(** Go's data[a:b] for a <= b: panics when b exceeds the slice. *)
Definition slice (data : list float64) (a b : nat) : option (list float64) :=
  if decide (b <= length data) then Some (take (b - a) (drop a data)) else None.

(** for i := 0; i < nRepositories; i++ { docs[i] = data[i*nFactors : (i+1)*nFactors] } *)
Fixpoint build_docs_from (i k nFactors : nat) (data : list float64)
    (docs : gmap nat (list float64)) : option (gmap nat (list float64)) :=
  match k with
  | O => Some docs
  | S k' =>
      match slice data (i * nFactors) ((i + 1) * nFactors) with
      | None => None
      | Some row => build_docs_from (S i) k' nFactors data (<[i := row]> docs)
      end
  end.

Definition build_docs (nRepositories nFactors : nat) (data : list float64) :=
  build_docs_from 0 nRepositories nFactors data ∅.

(** bufio.Reader.ReadString('\n') on the unread contents: the line read
    (delimiter included), the rest, and whether it returned an error
    (io.EOF before any delimiter). *)
Fixpoint ReadString (s : string) : string * string * bool :=
  match s with
  | EmptyString => ("", "", true)
  | String c s' =>
      if Ascii.eqb c newline then (String c "", s', false)
      else let '(l, r, e) := ReadString s' in (String c l, r, e)
  end.

(** strings.TrimRight(line, "\n"): drops every trailing newline. *)
Fixpoint TrimRight_nl (s : string) : string :=
  match s with
  | EmptyString => EmptyString
  | String c s' =>
      let t := TrimRight_nl s' in
      if Ascii.eqb c newline && String.eqb t "" then "" else String c t
  end.

(** for i := 0; i < rdr.Shape[0]; i++ { line, err := reader.ReadString('\n');
      if err != nil { return error }; repo := TrimRight(line, "\n");
      repositories[i] = repo; repositoryIDs[repo] = i } *)
Fixpoint read_lines (i k : nat) (rd : string) (repos : list string)
    (ids : gmap string nat) : option (list string * gmap string nat) :=
  match k with
  | O => Some (repos, ids)
  | S k' =>
      let '(line, rest, err) := ReadString rd in
      if err then None
      else
        let repo := TrimRight_nl line in
        read_lines (S i) k' rest (<[i := repo]> repos) (<[repo := i]> ids)
  end.

Definition confidence : Q := 3 # 1.
Definition regularization : Q := 1 # 1000.

Definition ReadModel (fs : Files) : outcome LoadError Model :=
  match item_factors_npy fs with
  | None => Err UnableToReadData
  | Some rdr =>
  match index_shape (Shape rdr) 0, index_shape (Shape rdr) 1 with
  | Some nRepositories, Some nFactors =>
    match GetFloat64 rdr with
    | None => Err UnableToParseData
    | Some data =>
    match build_docs nRepositories nFactors data with
    | None => Panic
    | Some docs =>
    match newVectorModel docs confidence regularization with
    | inl e => Err (VectorModelError e)
    | inr vm0 =>
    match items_csv fs with
    | None => Err UnableToOpenItems
    | Some contents =>
    match read_lines 0 nRepositories contents (replicate nRepositories "") ∅ with
    | None => Err UnableToReadLine
    | Some (repos, ids) =>
        Ok {| vm := vm0; repositories := repos; repositoryIDs := ids |}
    end end end end end
  | _, _ => Panic
  end
  end.

(** seenDocs := map[int]bool{}; for _, repo := range items {
      if repoID, ok := m.repositoryIDs[repo]; ok { seenDocs[repoID] = true } } *)
Definition seenDocs (m : Model) (items : list string) : gset nat :=
  foldl (fun s repo =>
           match repositoryIDs m !! repo with
           | Some repoID => s ∪ {[repoID]}
           | None => s
           end) ∅ items.

(** m.repositories[score.DocumentID], panicking out of range. *)
Definition repository_at (m : Model) (id : Z) : option string :=
  if decide (0 <= id)%Z then repositories m !! Z.to_nat id else None.

Fixpoint to_results (m : Model) (scores : list DocumentScore)
    (results : list RepositoryScore) : option (list RepositoryScore) :=
  match scores with
  | [] => Some results
  | score :: scores' =>
      match repository_at m (DocumentID score) with
      | None => None
      | Some r => to_results m scores'
                    (results ++ [{| Repository := r; Score := DocScore score |}])
      end
  end.

Definition Recommend (m : Model) (items : list string) (n : Z)
    : outcome VMError (list RepositoryScore) :=
  match vmRecommend (vm m) (seenDocs m items) n with
  | inl e => Err e
  | inr scores =>
      match to_results m scores [] with
      | None => Panic
      | Some results => Ok results
      end
  end.

End GithubRecs.

(** Number of '\n' bytes in a string: the newline-terminated lines. *)
Fixpoint count_nl (s : string) : nat :=
  match s with
  | EmptyString => 0
  | String c s' => (if Ascii.eqb c newline then 1 else 0) + count_nl s'
  end.

(** Concrete instances of the external packages, for running the model on
    sample inputs: a vector model that always builds, and a ranking that
    returns the documents it is given in a fixed order. *)
Definition sample_newVectorModel : gmap nat (list Z) -> Q -> Q -> unit + unit :=
  fun _ _ _ => inr tt.

Definition sample_vmRecommend (_ : unit) (seen : gset nat) (n : Z)
    : unit + list (DocumentScore (float64 := Z)) :=
  inr (map (fun i => {| DocumentID := Z.of_nat i; DocScore := 0%Z |}) (elements seen)).

Definition sample_files (nRepositories : nat) (items : string) : Files (float64 := Z) :=
  {| item_factors_npy :=
       Some {| Shape := [nRepositories; 1]; GetFloat64 := Some (replicate nRepositories 0%Z) |};
     items_csv := Some items |}.

(** Lines joined into an items.csv body, each terminated by '\n'. *)
Fixpoint join_lines (l : list string) : string :=
  match l with
  | [] => ""
  | x :: l' => x ++ String newline (join_lines l')
  end.

Definition empty_model : Model (VectorModel := unit) :=
  {| vm := tt; repositories := []; repositoryIDs := ∅ |}.

Definition model_or_empty (o : outcome (LoadError (VMError := unit)) (Model (VectorModel := unit))) :=
  match o with Ok m => m | _ => empty_model end.

(** The three-item sample model whose identifier file repeats "a". *)
Definition sample_dup_model : Model (VectorModel := unit) :=
  model_or_empty (ReadModel sample_newVectorModel (sample_files 3 (join_lines ["a"; "b"; "a"]))).

(** * The HTTP handlers of app.go

    [home] and [callback] with the GitHub helpers they call.  The HTTP
    client, JSON decoding, template execution, fmt's %v of a vectormodel
    error, url.QueryEscape and time.Now() are external and enter as section
    variables; Go error values are their Error() strings.  A handler's
    effect is the list of actions it performs on the ResponseWriter. *)

Section Handlers.

Context {float64 VectorModel VMError Body : Type}.
Context (vmRecommend : VectorModel -> gset nat -> Z -> VMError + list (DocumentScore (float64 := float64))).

Definition gitHubAuthenticatedUserURL := "https://api.github.com/user".
Definition gitHubStarredURL := "https://api.github.com/user/starred".
Definition gitHubAccessTokenURL := "https://github.com/login/oauth/access_token".

(** gitHubUserResponse: fields Error (json "error") and User (json
    "login"), renamed apart from other records' fields. *)
Record gitHubUserResponse := { userError : string; userLogin : string }.
(** gitHubStarredResponse: field Repository (json "full_name"). *)
Record gitHubStarredResponse := { starredFullName : string }.
Record gitHubAccessTokenResponse := {
  tokenError : string; tokenErrorDescription : string; tokenErrorURI : string;
  AccessToken : string; Scope : string }.

(** homeTemplateVars {ClientID, Err}. *)
Record homeTemplateVars := { ClientID : string; HomeErr : string }.
Record recommendationsTemplateVars := {
  User : string; Stars : list string; Recs : list (RepositoryScore (float64 := float64)) }.

(** The inputs of a request the handlers read: the "token" cookie
    ([None] when absent) and the form value "code". *)
Record HttpRequest := { token_cookie : option string; form_code : string }.

(** http.Cookie as set by callback; Expires in nanoseconds. *)
Record Cookie := { Name : string; Value : string; Expires : Z }.

(** What a handler does to its ResponseWriter. *)
Inductive Action :=
| ExecuteHome (vars : homeTemplateVars)
| ExecuteRecs (vars : recommendationsTemplateVars)
| HttpError (msg : string) (code : Z)
| Fprintf (text : string)
| SetCookie (c : Cookie)
| Redirect (url : string) (code : Z).

Context (gitHubClientID gitHubClientSecret : string).
(** http.NewRequest(method, url, body): [Some err] on failure. *)
Context (newRequest : string -> string -> option string).
(** client.Do(req) for a method, url, headers and body. *)
Context (clientDo : string -> string -> list (string * string) -> option string -> string + Body).
Context (decodeUser : Body -> string + gitHubUserResponse).
Context (decodeStarred : Body -> string + list gitHubStarredResponse).
Context (decodeToken : Body -> string + gitHubAccessTokenResponse).
(** t.Execute(w, vars) for the recommendations template: [Some err] on failure. *)
Context (executeRecs : recommendationsTemplateVars -> option string).
Context (fmtErr : VMError -> string).
Context (QueryEscape : string -> string).
Context (now : Z).

Definition gitHubAuthenticatedRequest {A : Type} (decode : Body -> string + A)
    (r : HttpRequest) (url : string) : string + A :=
  match token_cookie r with
  | None => inl "Unauthorized"
  | Some gitHubToken =>
      let fullURL := url ++ "?access_token=" ++ gitHubToken in
      match newRequest "GET" fullURL with
      | Some e => inl e
      | None =>
          match clientDo "GET" fullURL [("Accept", "application/json")] None with
          | inl e => inl e
          | inr resp => decode resp
          end
      end
  end.

Definition authenticatedUser (r : HttpRequest) : string + string :=
  match gitHubAuthenticatedRequest decodeUser r gitHubAuthenticatedUserURL with
  | inl e => inl e
  | inr result =>
      if String.eqb (userError result) "" then inr (userLogin result)
      else inl ("Error from GitHub: " ++ userError result)
  end.

Definition starred (r : HttpRequest) : string + list string :=
  match gitHubAuthenticatedRequest decodeStarred r gitHubStarredURL with
  | inl e => inl e
  | inr result => inr (map starredFullName result)
  end.

(** home; [None] is a panic of the handler (from Recommend). The two
    templates are constants whose parsing succeeds. *)
Definition home (model : option (Model (VectorModel := VectorModel))) (r : HttpRequest)
    : option (list Action) :=
  let fetched :=
    match authenticatedUser r with
    | inl e => inl e
    | inr user =>
        match starred r with
        | inl e => inl e
        | inr stars => inr (user, stars)
        end
    end in
  match fetched with
  | inl e =>
      Some [ExecuteHome {| ClientID := gitHubClientID;
                           HomeErr := if String.eqb e "Unauthorized" then "" else e |}]
  | inr (user, stars) =>
      match model with
      | None => Some [HttpError "model was not initialized" 500]
      | Some m =>
          match Recommend vmRecommend m stars 10 with
          | Err e => Some [HttpError ("Failed: " ++ fmtErr e) 500]
          | Panic => None
          | Ok recs =>
              let vars := {| User := user; Stars := stars; Recs := recs |} in
              Some (ExecuteRecs vars ::
                    match executeRecs vars with
                    | Some e => [HttpError ("Template execution failed: " ++ e) 500]
                    | None => []
                    end)
          end
      end
  end.

(** url.Values.Encode for one value per key, keys already in sorted order
    (client_id < client_secret < code, as url.Values.Encode sorts them). *)
Fixpoint values_Encode (kvs : list (string * string)) : string :=
  match kvs with
  | [] => ""
  | [(k, v)] => QueryEscape k ++ "=" ++ QueryEscape v
  | (k, v) :: kvs' => QueryEscape k ++ "=" ++ QueryEscape v ++ "&" ++ values_Encode kvs'
  end.

Definition callback (r : HttpRequest) : list Action :=
  let sessionCode := form_code r in
  let body := values_Encode [("client_id", gitHubClientID);
                             ("client_secret", gitHubClientSecret);
                             ("code", sessionCode)] in
  match newRequest "POST" gitHubAccessTokenURL with
  | Some e => [HttpError e 500]
  | None =>
      match clientDo "POST" gitHubAccessTokenURL
              [("Content-Type", "application/x-www-form-urlencoded"); ("Accept", "application/json")]
              (Some body) with
      | inl e => [HttpError e 500; Fprintf ("Something went wrong! " ++ e)]
      | inr resp =>
          match decodeToken resp with
          | inl e => [HttpError e 500]
          | inr result =>
              if negb (String.eqb (tokenError result) "") then [HttpError (tokenError result) 500]
              else
                let expiration := now + 10 * 60 * 1000000000 in
                [SetCookie {| Name := "token"; Value := AccessToken result; Expires := expiration |};
                 Redirect "/" 302]
          end
      end
  end%Z.

End Handlers.

(** Concrete collaborators for running the handlers on sample requests. *)
Definition sample_newRequest (_ _ : string) : option string := None.
Definition sample_clientDo (_ _ : string) (_ : list (string * string)) (_ : option string)
    : string + unit := inr tt.
Definition sample_decodeUser (_ : unit) : string + gitHubUserResponse :=
  inr {| userError := "bad credentials"; userLogin := "" |}.
Definition sample_decodeStarred (_ : unit) : string + list gitHubStarredResponse := inr [].
Definition sample_executeRecs (_ : recommendationsTemplateVars (float64 := Z)) : option string := None.
Definition sample_fmtErr (_ : unit) : string := "error".

Section Proofs.

Context {float64 VectorModel VMError : Type}.
Context (newVectorModel : gmap nat (list float64) -> Q -> Q -> VMError + VectorModel).
Context (vmRecommend : VectorModel -> gset nat -> Z -> VMError + list (DocumentScore (float64 := float64))).

(** Invariant of the identifier loop after [i] lines: [ids] maps [r] to [j]
    exactly when [j] is the last line below [i] holding [r], and every
    identifier of a line below [i] is mapped to an index at or after it. *)
Definition last_index_map (repos : list string) (i : nat) (ids : gmap string nat) : Prop :=
  (forall r j, ids !! r = Some j <->
     j < i /\ repos !! j = Some r /\ forall k, j < k < i -> repos !! k <> Some r) /\
  (forall r j, j < i -> repos !! j = Some r -> exists j', ids !! r = Some j' /\ j <= j').

Lemma last_index_map_empty (repos : list string) : last_index_map repos 0 ∅.
Proof.
  split.
  - intros r j. rewrite lookup_empty. split; [discriminate | lia].
  - intros r j Hj. lia.
Qed.

Lemma last_index_map_step (repos : list string) (i : nat) (ids : gmap string nat) (repo : string) :
  i < length repos -> last_index_map repos i ids ->
  last_index_map (<[i := repo]> repos) (S i) (<[repo := i]> ids).
Proof.
  intros Hlen [Hmap Hcov]. split.
  - intros r j. destruct (decide (r = repo)) as [->|Hne].
    + rewrite lookup_insert_eq. split.
      * intros [= <-]. split; [lia|]. split; [by apply list_lookup_insert_eq|].
        intros k Hk. lia.
      * intros (Hj & Hr & Hlast). destruct (decide (j = i)) as [->|Hji]; [done|].
        exfalso. apply (Hlast i); [lia|]. by apply list_lookup_insert_eq.
    + rewrite lookup_insert_ne by congruence. rewrite Hmap. split.
      * intros (Hj & Hr & Hlast). split; [lia|].
        rewrite list_lookup_insert_ne by lia. split; [done|].
        intros k Hk. destruct (decide (k = i)) as [->|Hki].
        -- rewrite list_lookup_insert_eq by done. congruence.
        -- rewrite list_lookup_insert_ne by lia. apply Hlast. lia.
      * intros (Hj & Hr & Hlast).
        destruct (decide (j = i)) as [->|Hji].
        -- rewrite list_lookup_insert_eq in Hr by done. congruence.
        -- rewrite list_lookup_insert_ne in Hr by lia. split; [lia|]. split; [done|].
           intros k Hk. specialize (Hlast k ltac:(lia)).
           rewrite list_lookup_insert_ne in Hlast by lia. done.
  - intros r j Hj Hr. destruct (decide (r = repo)) as [->|Hne].
    + exists i. rewrite lookup_insert_eq. split; [done|lia].
    + rewrite lookup_insert_ne by congruence.
      destruct (decide (j = i)) as [->|Hji].
      * rewrite list_lookup_insert_eq in Hr by done. congruence.
      * rewrite list_lookup_insert_ne in Hr by lia. apply Hcov; [lia|done].
Qed.

Lemma read_lines_spec (k i : nat) (rd : string) (repos : list string) (ids : gmap string nat)
    (repos' : list string) (ids' : gmap string nat) :
  read_lines i k rd repos ids = Some (repos', ids') ->
  i + k = length repos -> last_index_map repos i ids ->
  length repos' = length repos /\ last_index_map repos' (length repos) ids'.
Proof.
  revert i rd repos ids. induction k as [|k IH]; intros i rd repos ids Hrl Hik Hinv; simpl in Hrl.
  - injection Hrl as <- <-. replace (length repos) with i by lia. done.
  - destruct (ReadString rd) as [[line rest] err]. destruct err; [discriminate|].
    apply IH in Hrl as [Hl Hi].
    + rewrite length_insert in Hl, Hi. done.
    + rewrite length_insert. lia.
    + apply last_index_map_step; [lia|done].
Qed.

Lemma ReadModel_ok_inv (fs : Files) (m : Model) :
  ReadModel newVectorModel fs = Ok m ->
  exists docs, newVectorModel docs confidence regularization = inr (vm m) /\
    last_index_map (repositories m) (length (repositories m)) (repositoryIDs m).
Proof.
  unfold ReadModel. intros H. repeat case_match; simplify_eq/=.
  exists g. split; [done|].
  match goal with
  | Hr : read_lines _ _ _ _ _ = Some _ |- _ =>
      apply read_lines_spec in Hr as [Hl Hi];
      [ | rewrite length_replicate; lia | apply last_index_map_empty ]
  end.
  by rewrite Hl.
Qed.

(** C5: when the identifier file holds the same identifier [r] on lines
    [i < j] and on no line after [j], the map built by ReadModel sends [r]
    to the later index [j]: the later occurrence overwrites the earlier. *)
Theorem ReadModel_duplicate_later_wins (fs : Files) (m : Model) (i j : nat) (r : string) :
  ReadModel newVectorModel fs = Ok m ->
  i < j ->
  repositories m !! i = Some r ->
  repositories m !! j = Some r ->
  (forall k, j < k -> repositories m !! k <> Some r) ->
  repositoryIDs m !! r = Some j.
Proof.
  intros Hload Hij Hi Hj Hlater.
  destruct (ReadModel_ok_inv fs m Hload) as (docs & _ & Hmap & _).
  apply Hmap. split; [by apply lookup_lt_Some in Hj|]. split; [done|].
  intros k Hk. apply Hlater. lia.
Qed.

(** C6 (amended): for a loaded model and a line [i], looking up the
    identifier stored at [i] gives the last line [j >= i] holding the same
    identifier; it gives [i] itself when no later line repeats it, in
    particular when all identifiers are distinct. *)
Theorem ReadModel_lookup_identifier_at (fs : Files) (m : Model) (i : nat) (r : string) :
  ReadModel newVectorModel fs = Ok m ->
  repositories m !! i = Some r ->
  (exists j, repositoryIDs m !! r = Some j /\ i <= j /\ repositories m !! j = Some r /\
     forall k, j < k -> repositories m !! k <> Some r) /\
  ((forall k, i < k -> repositories m !! k <> Some r) -> repositoryIDs m !! r = Some i) /\
  (NoDup (repositories m) -> repositoryIDs m !! r = Some i).
Proof.
  intros Hload Hi.
  destruct (ReadModel_ok_inv fs m Hload) as (docs & _ & Hmap & Hcov).
  assert (Hlast : forall j, repositoryIDs m !! r = Some j ->
            repositories m !! j = Some r /\ forall k, j < k -> repositories m !! k <> Some r).
  { intros j Hj. apply Hmap in Hj as (Hjl & Hjr & Hjk). split; [done|].
    intros k Hk Hkr. apply (Hjk k); [|done]. split; [done|].
    by apply lookup_lt_Some in Hkr. }
  destruct (Hcov r i) as (j & Hj & Hij); [by apply lookup_lt_Some in Hi|done|].
  destruct (Hlast j Hj) as [Hjr Hjk].
  split; [exists j; auto|]. split.
  - intros Hnone. destruct (decide (j = i)) as [->|Hne]; [done|].
    exfalso. apply (Hnone j); [lia|done].
  - intros Hnd. destruct (decide (j = i)) as [->|Hne]; [done|].
    exfalso. apply Hne. eapply NoDup_lookup; eauto.
Qed.

(** C10: the hyperparameters are fixed: every model ReadModel returns was
    built by the vector model constructor with confidence 3 and
    regularization 0.001, both positive, so no invalid-hyperparameter
    condition can arise; and every error ReadModel returns is one of its
    load errors, the vector model's own error only from that same call. *)
Theorem ReadModel_fixed_hyperparameters (fs : Files) :
  confidence = 3 # 1 /\ regularization = 1 # 1000 /\
  (0 < confidence)%Q /\ (0 < regularization)%Q /\
  (forall m, ReadModel newVectorModel fs = Ok m ->
     exists docs, newVectorModel docs (3 # 1) (1 # 1000) = inr (vm m)) /\
  (forall e, ReadModel newVectorModel fs = Err e ->
     e = UnableToReadData \/ e = UnableToParseData \/ e = UnableToOpenItems \/
     e = UnableToReadLine \/
     exists ve docs, e = VectorModelError ve /\ newVectorModel docs (3 # 1) (1 # 1000) = inl ve).
Proof.
  split; [done|]. split; [done|]. split; [reflexivity|]. split; [reflexivity|]. split.
  - intros m Hload. destruct (ReadModel_ok_inv fs m Hload) as (docs & Hvm & _).
    by exists docs.
  - intros e. unfold ReadModel. intros H. repeat case_match; simplify_eq/=; eauto 10.
Qed.

Lemma ReadString_count (rd line rest : string) (err : bool) :
  ReadString rd = (line, rest, err) ->
  (err = true <-> count_nl rd = 0) /\ (err = false -> count_nl rd = S (count_nl rest)).
Proof.
  revert line rest err. induction rd as [|c rd IH]; intros line rest err H; simpl in H.
  - injection H as <- <- <-. simpl. done.
  - simpl. destruct (Ascii.eqb c newline) eqn:Hc.
    + injection H as <- <- <-. split; [split; discriminate|]. done.
    + revert H. case_eq (ReadString rd). intros [l r] e Hrd H. injection H as <- <- <-.
      apply IH in Hrd. simpl. done.
Qed.


Lemma build_docs_from_some (k i nFactors : nat) (data : list float64) (docs : gmap nat (list float64)) :
  (i + k) * nFactors <= length data ->
  exists docs', build_docs_from i k nFactors data docs = Some docs'.
Proof.
  revert i docs. induction k as [|k IH]; intros i docs Hlen; simpl; [eauto|].
  unfold slice. rewrite decide_True by nia. apply IH. nia.
Qed.

Lemma elem_of_seenDocs_from (m : Model (VectorModel := VectorModel)) (items : list string) (s : gset nat) (i : nat) :
  i ∈ foldl (fun s repo =>
               match repositoryIDs m !! repo with
               | Some repoID => s ∪ {[repoID]}
               | None => s
               end) s items <->
  i ∈ s \/ exists r, r ∈ items /\ repositoryIDs m !! r = Some i.
Proof.
  revert s. induction items as [|r items IH]; intros s; simpl.
  - split; [auto|]. intros [Hs|(r & Hr & _)]; [done|]. by apply elem_of_nil in Hr.
  - rewrite IH. destruct (repositoryIDs m !! r) as [id|] eqn:Hid.
    + rewrite elem_of_union, elem_of_singleton. split.
      * intros [[Hs| ->]|(r' & Hr' & Hid')]; [auto| |].
        -- right. exists r. split; [left|done].
        -- right. exists r'. split; [by right|done].
      * intros [Hs|(r' & Hr' & Hid')]; [auto|].
        apply elem_of_cons in Hr' as [->|Hr'].
        -- left. right. congruence.
        -- right. eauto.
    + split.
      * intros [Hs|(r' & Hr' & Hid')]; [auto|]. right. exists r'. split; [by right|done].
      * intros [Hs|(r' & Hr' & Hid')]; [auto|].
        apply elem_of_cons in Hr' as [->|Hr']; [congruence|]. right. eauto.
Qed.

Lemma elem_of_seenDocs (m : Model (VectorModel := VectorModel)) (items : list string) (i : nat) :
  i ∈ seenDocs m items <-> exists r, r ∈ items /\ repositoryIDs m !! r = Some i.
Proof.
  unfold seenDocs. rewrite elem_of_seenDocs_from. set_solver.
Qed.

(** C7: an identifier absent from the model's identifier map is dropped
    silently: inserting it anywhere in the input leaves the feedback set
    and the whole result of Recommend unchanged, and Recommend returns an
    error only when the vector model's own ranking does. *)
Theorem Recommend_drops_unknown (m : Model (VectorModel := VectorModel)) (l1 l2 : list string) (r : string) (n : Z) :
  repositoryIDs m !! r = None ->
  seenDocs m (l1 ++ r :: l2) = seenDocs m (l1 ++ l2) /\
  Recommend vmRecommend m (l1 ++ r :: l2) n = Recommend vmRecommend m (l1 ++ l2) n /\
  (forall items e, Recommend vmRecommend m items n = Err e ->
     vmRecommend (vm m) (seenDocs m items) n = inl e).
Proof.
  intros Hr.
  assert (Hseen : seenDocs m (l1 ++ r :: l2) = seenDocs m (l1 ++ l2)).
  { unfold seenDocs. rewrite !foldl_app. simpl. by rewrite Hr. }
  split; [done|]. split.
  - unfold Recommend. by rewrite Hseen.
  - intros items e. unfold Recommend.
    destruct (vmRecommend (vm m) (seenDocs m items) n) as [e'|scores]; [congruence|].
    destruct (to_results m scores []); discriminate.
Qed.

(** C9: Recommend depends on its input identifiers only through the set of
    indices they resolve to: two inputs resolving to the same index set
    (whatever their order, duplicates or unknown identifiers) give the
    same result for the same [n]. *)
Theorem Recommend_depends_on_resolved_set (m : Model (VectorModel := VectorModel)) (l1 l2 : list string) (n : Z) :
  (forall i, (exists r, r ∈ l1 /\ repositoryIDs m !! r = Some i) <->
             (exists r, r ∈ l2 /\ repositoryIDs m !! r = Some i)) ->
  Recommend vmRecommend m l1 n = Recommend vmRecommend m l2 n.
Proof.
  intros Hsame.
  assert (Hseen : seenDocs m l1 = seenDocs m l2).
  { apply set_eq. intros i. rewrite !elem_of_seenDocs. apply Hsame. }
  unfold Recommend. by rewrite Hseen.
Qed.

End Proofs.

(** * Witnesses and counterexamples on concrete inputs *)

Lemma ReadModel_duplicate_later_wins_witness :
  ReadModel sample_newVectorModel (sample_files 3 (join_lines ["a"; "b"; "a"])) = Ok sample_dup_model /\
  repositoryIDs sample_dup_model !! "a" = Some 2.
Proof.
  split; [vm_compute; reflexivity|].
  apply (ReadModel_duplicate_later_wins sample_newVectorModel
           (sample_files 3 (join_lines ["a"; "b"; "a"])) sample_dup_model 0 2 "a").
  - vm_compute. reflexivity.
  - lia.
  - reflexivity.
  - reflexivity.
  - intros k Hk.
    assert (Hr : repositories sample_dup_model = ["a"; "b"; "a"]) by (vm_compute; reflexivity).
    rewrite Hr, lookup_ge_None_2 by (simpl; lia). discriminate.
Defined.

(** C6 counterexample: with "a" on lines 0 and 1, looking up the identifier
    stored at index 0 returns 1, not 0. *)
Lemma ReadModel_lookup_roundtrip_fails :
  exists m, ReadModel sample_newVectorModel (sample_files 2 (join_lines ["a"; "a"])) = Ok m /\
    repositories m !! 0 = Some "a" /\ repositoryIDs m !! "a" = Some 1 /\
    repositoryIDs m !! "a" <> Some 0.
Proof.
  eexists. split; [vm_compute; reflexivity|].
  split; [reflexivity|]. split; [reflexivity|]. discriminate.
Qed.

Lemma ReadModel_lookup_identifier_at_witness :
  ReadModel sample_newVectorModel (sample_files 3 (join_lines ["a"; "b"; "a"])) = Ok sample_dup_model /\
  repositories sample_dup_model !! 0 = Some "a" /\
  exists j, repositoryIDs sample_dup_model !! "a" = Some j /\ 0 <= j /\
    repositories sample_dup_model !! j = Some "a" /\
    forall k, j < k -> repositories sample_dup_model !! k <> Some "a".
Proof.
  split; [vm_compute; reflexivity|]. split; [reflexivity|].
  apply (ReadModel_lookup_identifier_at sample_newVectorModel
           (sample_files 3 (join_lines ["a"; "b"; "a"])) sample_dup_model 0 "a").
  - vm_compute. reflexivity.
  - reflexivity.
Defined.

Lemma ReadModel_fixed_hyperparameters_witness :
  exists docs, sample_newVectorModel docs (3 # 1) (1 # 1000) = inr (vm sample_dup_model).
Proof.
  destruct (ReadModel_fixed_hyperparameters sample_newVectorModel
              (sample_files 3 (join_lines ["a"; "b"; "a"]))) as (_ & _ & _ & _ & Hok & _).
  apply Hok. vm_compute. reflexivity.
Defined.


Lemma Recommend_drops_unknown_witness :
  repositoryIDs sample_dup_model !! "zz" = None /\
  Recommend sample_vmRecommend sample_dup_model (["a"] ++ "zz" :: ["b"]) 10 =
  Recommend sample_vmRecommend sample_dup_model (["a"] ++ ["b"]) 10.
Proof.
  assert (H : repositoryIDs sample_dup_model !! "zz" = None) by (vm_compute; reflexivity).
  split; [exact H|].
  apply (Recommend_drops_unknown sample_vmRecommend sample_dup_model ["a"] ["b"] "zz" 10 H).
Defined.

Lemma Recommend_depends_on_resolved_set_witness :
  Recommend sample_vmRecommend sample_dup_model ["a"; "b"] 10 =
  Recommend sample_vmRecommend sample_dup_model ["b"; "zz"; "a"; "a"] 10.
Proof.
  apply Recommend_depends_on_resolved_set.
  intros i. split; intros (r & Hr & Hi); exists r; split; [set_solver|done|set_solver|].
  apply elem_of_cons in Hr as [->|Hr]; [set_solver|].
  apply elem_of_cons in Hr as [->|Hr]; [vm_compute in Hi; discriminate|set_solver].
Defined.

(** * Further properties of the loader and of Recommend *)

Section LoaderProps.

Context {float64 VectorModel VMError : Type}.
Context (newVectorModel : gmap nat (list float64) -> Q -> Q -> VMError + VectorModel).
Context (vmRecommend : VectorModel -> gset nat -> Z -> VMError + list (DocumentScore (float64 := float64))).

Lemma string_app_assoc (x y z : string) : (x ++ y) ++ z = x ++ (y ++ z).
Proof. induction x as [|c x IH]; [reflexivity|]. exact (f_equal (String c) IH). Qed.

Lemma ReadString_app (x s : string) :
  count_nl x = 0 -> ReadString (x ++ String newline s) = (x ++ String newline "", s, false).
Proof.
  induction x as [|c x IH]; intros Hx; simpl; [done|].
  simpl in Hx. destruct (Ascii.eqb c newline); [discriminate|]. by rewrite IH.
Qed.

Lemma TrimRight_nl_app (x : string) :
  count_nl x = 0 -> TrimRight_nl (x ++ String newline "") = x.
Proof.
  induction x as [|c x IH]; intros Hx; simpl; [done|].
  simpl in Hx. destruct (Ascii.eqb c newline); [discriminate|]. simpl. by rewrite IH.
Qed.

Lemma ReadString_trim_no_nl (rd line rest : string) (err : bool) :
  ReadString rd = (line, rest, err) -> count_nl (TrimRight_nl line) = 0.
Proof.
  revert line rest err. induction rd as [|c rd IH]; intros line rest err H; simpl in H.
  - by injection H as <- <- <-.
  - destruct (Ascii.eqb c newline) eqn:Hc.
    + injection H as <- <- <-. simpl. rewrite Hc. done.
    + revert H. case_eq (ReadString rd). intros [l r] e Hrd H. injection H as <- <- <-.
      simpl. rewrite Hc. simpl. rewrite Hc. eapply IH. exact Hrd.
Qed.

Lemma ReadString_app_tail (rd tail line rest : string) :
  ReadString rd = (line, rest, false) -> ReadString (rd ++ tail) = (line, rest ++ tail, false).
Proof.
  revert line rest. induction rd as [|c rd IH]; intros line rest H; simpl in H; [discriminate|].
  simpl. destruct (Ascii.eqb c newline).
  - by injection H as <- <-.
  - revert H. case_eq (ReadString rd). intros [l r] e Hrd H. injection H as <- <- ->.
    by rewrite (IH l r Hrd).
Qed.

Lemma read_lines_app_tail (k i : nat) (rd tail : string) (repos : list string) (ids : gmap string nat) :
  k <= count_nl rd -> read_lines i k (rd ++ tail) repos ids = read_lines i k rd repos ids.
Proof.
  revert i rd repos ids. induction k as [|k IH]; intros i rd repos ids Hk; simpl; [done|].
  case_eq (ReadString rd). intros [line rest] err Hrd.
  pose proof (ReadString_count rd line rest err Hrd) as [Herr Hcnt].
  destruct err.
  - assert (count_nl rd = 0) by (by apply Herr). lia.
  - rewrite (ReadString_app_tail rd tail line rest Hrd). apply IH.
    specialize (Hcnt eq_refl). lia.
Qed.

Lemma read_lines_join (l : list string) (tail : string) (i : nat) (repos : list string) (ids : gmap string nat) :
  Forall (fun x => count_nl x = 0) l -> i + length l = length repos ->
  exists ids', read_lines i (length l) (join_lines l ++ tail) repos ids = Some ((take i repos ++ l)%list, ids').
Proof.
  revert i repos ids. induction l as [|x l IH]; intros i repos ids Hl Hlen.
  - exists ids. simpl in Hlen |- *. rewrite take_ge; [by rewrite app_nil_r|]. lia.
  - apply Forall_cons in Hl as [Hx Hl]. simpl in Hlen.
    assert (Hj : join_lines (x :: l) ++ tail = x ++ String newline (join_lines l ++ tail)).
    { exact (string_app_assoc x (String newline (join_lines l)) tail). }
    rewrite Hj. change (length (x :: l)) with (S (length l)). cbn [read_lines].
    rewrite ReadString_app by done. cbn iota. rewrite TrimRight_nl_app by done.
    destruct (IH (S i) (<[i := x]> repos) (<[x := i]> ids)) as [ids' Hrl];
      [done|rewrite length_insert; lia|].
    exists ids'. rewrite Hrl. f_equal. f_equal.
    rewrite (take_S_r _ _ x) by (apply list_lookup_insert_eq; lia).
    rewrite take_insert_ge by lia. by rewrite <-app_assoc.
Qed.

Lemma read_lines_no_nl (k i : nat) (rd : string) (repos : list string) (ids : gmap string nat)
    (repos' : list string) (ids' : gmap string nat) :
  read_lines i k rd repos ids = Some (repos', ids') ->
  Forall (fun x => count_nl x = 0) repos -> Forall (fun x => count_nl x = 0) repos'.
Proof.
  revert i rd repos ids. induction k as [|k IH]; intros i rd repos ids Hrl Hall; simpl in Hrl.
  - by injection Hrl as <- <-.
  - revert Hrl. case_eq (ReadString rd). intros [line rest] err Hrd Hrl.
    destruct err; [discriminate|]. apply IH in Hrl; [done|].
    apply Forall_insert; [done|]. eapply ReadString_trim_no_nl. exact Hrd.
Qed.

Lemma build_docs_from_spec (k i nFactors : nat) (data : list float64) (docs docs' : gmap nat (list float64)) :
  build_docs_from i k nFactors data docs = Some docs' ->
  forall j, docs' !! j = if decide (i <= j < i + k) then Some (take nFactors (drop (j * nFactors) data))
                         else docs !! j.
Proof.
  revert i docs. induction k as [|k IH]; intros i docs Hb j; simpl in Hb.
  - injection Hb as <-. rewrite decide_False by lia. done.
  - unfold slice in Hb. destruct (decide ((i + 1) * nFactors <= length data)); [|discriminate].
    rewrite (IH _ _ Hb j). destruct (decide (S i <= j < S i + k)).
    + rewrite decide_True by lia. done.
    + destruct (decide (j = i)) as [->|Hne].
      * rewrite lookup_insert_eq, decide_True by lia. do 2 f_equal. lia.
      * rewrite lookup_insert_ne by congruence. destruct (decide (i <= j < i + S k)); [lia|done].
Qed.

Lemma build_docs_from_short (k i nFactors : nat) (data : list float64) (docs : gmap nat (list float64)) :
  0 < k -> length data < (i + k) * nFactors -> build_docs_from i k nFactors data docs = None.
Proof.
  revert i docs. induction k as [|k IH]; intros i docs Hk Hlen; [lia|]. simpl.
  unfold slice. destruct (decide ((i + 1) * nFactors <= length data)); [|done].
  destruct k as [|k]; [nia|]. apply IH; [lia|nia].
Qed.

Lemma ReadModel_ok_steps (fs : Files) (m : Model) :
  ReadModel newVectorModel fs = Ok m ->
  exists rdr nRepositories nFactors rest data docs contents,
    item_factors_npy fs = Some rdr /\ Shape rdr = nRepositories :: nFactors :: rest /\
    GetFloat64 rdr = Some data /\ build_docs nRepositories nFactors data = Some docs /\
    newVectorModel docs confidence regularization = inr (vm m) /\
    items_csv fs = Some contents /\
    read_lines 0 nRepositories contents (replicate nRepositories "") ∅ =
      Some (repositories m, repositoryIDs m).
Proof.
  unfold ReadModel, index_shape. intros H.
  destruct (item_factors_npy fs) as [rdr|]; [|discriminate].
  destruct (Shape rdr) as [|nR [|nF rest]] eqn:Hs; simpl in H; try discriminate.
  repeat case_match; simplify_eq/=. eauto 20.
Qed.

(** Round trip: writing identifiers without newlines one per line into
    items.csv (followed by any further content) and loading them against an
    array with as many rows and enough data gives back exactly those
    identifiers, in order, whenever the vector model builds from this
    load's rows. *)
Theorem ReadModel_identifiers_roundtrip (fs : Files) (rdr : NpyReader) (l : list string)
    (nFactors : nat) (rest : list nat) (data : list float64) (tail : string) :
  Forall (fun x => count_nl x = 0) l ->
  item_factors_npy fs = Some rdr -> Shape rdr = length l :: nFactors :: rest ->
  GetFloat64 rdr = Some data -> length l * nFactors <= length data ->
  items_csv fs = Some (join_lines l ++ tail) ->
  exists docs, build_docs (length l) nFactors data = Some docs /\
    forall v, newVectorModel docs confidence regularization = inr v ->
      exists m, ReadModel newVectorModel fs = Ok m /\ repositories m = l /\ vm m = v.
Proof.
  intros Hl Hnpy Hshape Hdata Hlen Hitems.
  destruct (build_docs_from_some (length l) 0 nFactors data ∅) as [docs Hdocs]; [lia|].
  exists docs. split; [exact Hdocs|]. intros v Hv. unfold ReadModel.
  rewrite Hnpy, Hshape. simpl. rewrite Hdata.
  unfold build_docs. rewrite Hdocs, Hv, Hitems.
  destruct (read_lines_join l tail 0 (replicate (length l) "") ∅) as [ids Hrl];
    [done|rewrite length_replicate; lia|].
  rewrite Hrl. eexists. split; [reflexivity|]. done.
Qed.

(** Every identifier of a loaded model is free of newline bytes: the
    trailing '\n' of each line is trimmed and a line holds no other. *)
Theorem ReadModel_identifiers_no_newline (fs : Files) (m : Model) :
  ReadModel newVectorModel fs = Ok m ->
  Forall (fun r => count_nl r = 0) (repositories m).
Proof.
  intros Hload.
  destruct (ReadModel_ok_steps fs m Hload) as (rdr & nR & nF & rest & data & docs & contents & _ & _ & _ & _ & _ & _ & Hrl).
  eapply read_lines_no_nl; [exact Hrl|]. by apply Forall_replicate.
Qed.

(** A loaded model holds one identifier per array row (Shape[0]), the
    identifier map's keys are exactly the stored identifiers, and every
    index in the map is a valid position holding its key. *)
Theorem ReadModel_identifier_map_shape (fs : Files) (m : Model) (rdr : NpyReader) :
  ReadModel newVectorModel fs = Ok m -> item_factors_npy fs = Some rdr ->
  Some (length (repositories m)) = Shape rdr !! 0 /\
  dom (repositoryIDs m) = list_to_set (repositories m) /\
  (forall r j, repositoryIDs m !! r = Some j ->
     j < length (repositories m) /\ repositories m !! j = Some r).
Proof.
  intros Hload Hnpy.
  destruct (ReadModel_ok_steps fs m Hload) as (rdr' & nR & nF & rest & data & docs & contents & Hnpy' & Hs & _ & _ & _ & _ & Hrl).
  rewrite Hnpy in Hnpy'. injection Hnpy' as <-.
  apply read_lines_spec in Hrl as [Hl [Hmap Hcov]];
    [|rewrite length_replicate; lia|apply last_index_map_empty].
  rewrite length_replicate in Hl, Hmap, Hcov.
  split; [by rewrite Hs, Hl|]. split.
  - apply set_eq. intros r. rewrite elem_of_dom, elem_of_list_to_set, list_elem_of_lookup. split.
    + intros [j Hj]. apply Hmap in Hj as (_ & Hj & _). eauto.
    + intros [j Hj]. destruct (Hcov r j) as (j' & Hj' & _); [rewrite <-Hl; by eapply lookup_lt_Some|done|].
      eauto.
  - intros r j Hj. apply Hmap in Hj as (Hj & Hr & _). rewrite Hl. done.
Qed.

(** Every index in the feedback set that Recommend builds for a loaded
    model is a valid position whose identifier is one of the inputs. *)
Theorem ReadModel_seenDocs_valid (fs : Files) (m : Model) (items : list string) (i : nat) :
  ReadModel newVectorModel fs = Ok m -> i ∈ seenDocs m items ->
  i < length (repositories m) /\ exists r, repositories m !! i = Some r /\ r ∈ items.
Proof.
  intros Hload Hi. apply elem_of_seenDocs in Hi as (r & Hr & Hid).
  destruct (ReadModel_ok_inv newVectorModel fs m Hload) as (docs & _ & Hmap & _).
  apply Hmap in Hid as (Hlt & Hri & _). eauto.
Qed.

(** Content of items.csv after its N-th newline, where N is the array's
    row count, never changes what ReadModel returns. *)
Theorem ReadModel_ignores_trailing_content (fs : Files) (rdr : NpyReader) (nRepositories : nat)
    (rest : list nat) (contents tail : string) :
  item_factors_npy fs = Some rdr -> Shape rdr = nRepositories :: rest ->
  items_csv fs = Some contents -> nRepositories <= count_nl contents ->
  ReadModel newVectorModel {| item_factors_npy := item_factors_npy fs;
                              items_csv := Some (contents ++ tail) |} =
  ReadModel newVectorModel fs.
Proof.
  intros Hnpy Hs Hc Hle. unfold ReadModel. simpl. rewrite Hnpy, Hc, Hs.
  repeat case_match; simplify_eq/=; try done;
    by rewrite read_lines_app_tail in * by done; simplify_eq.
Qed.

(** ReadModel panics instead of returning an error when the npy header
    has fewer than two dimensions, or when the float data is shorter than
    rows times columns for a non-empty array. *)
Theorem ReadModel_panics (fs : Files) (rdr : NpyReader) :
  item_factors_npy fs = Some rdr ->
  (length (Shape rdr) < 2 -> ReadModel newVectorModel fs = Panic) /\
  (forall nRepositories nFactors rest data,
     Shape rdr = nRepositories :: nFactors :: rest -> GetFloat64 rdr = Some data ->
     0 < nRepositories -> length data < nRepositories * nFactors ->
     ReadModel newVectorModel fs = Panic).
Proof.
  intros Hnpy. unfold ReadModel, index_shape. rewrite Hnpy. split.
  - intros Hlen. destruct (Shape rdr) as [|a [|b s]]; simpl in *; [done|done|lia].
  - intros nR nF rest data Hs Hd Hpos Hlen. rewrite Hs. simpl. rewrite Hd.
    unfold build_docs. rewrite build_docs_from_short by lia. done.
Qed.

(** The vector model of a loaded model is built from one row per array
    row: row [i] is data[i*F : (i+1)*F] for [i] below Shape[0], and there
    is no other row. *)
Theorem ReadModel_docs_rows (fs : Files) (m : Model) (rdr : NpyReader) (nRepositories nFactors : nat)
    (rest : list nat) (data : list float64) :
  ReadModel newVectorModel fs = Ok m -> item_factors_npy fs = Some rdr ->
  Shape rdr = nRepositories :: nFactors :: rest -> GetFloat64 rdr = Some data ->
  exists docs, newVectorModel docs confidence regularization = inr (vm m) /\
    forall i, docs !! i = if decide (i < nRepositories)
                          then Some (take nFactors (drop (i * nFactors) data)) else None.
Proof.
  intros Hload Hnpy Hs Hd.
  destruct (ReadModel_ok_steps fs m Hload) as (rdr' & nR & nF & rest' & data' & docs & contents & Hnpy' & Hs' & Hd' & Hb & Hvm & _ & _).
  rewrite Hnpy in Hnpy'. injection Hnpy' as <-. rewrite Hs in Hs'. injection Hs' as <- <- <-.
  rewrite Hd in Hd'. injection Hd' as <-.
  exists docs. split; [done|]. intros i. rewrite (build_docs_from_spec _ _ _ _ _ _ Hb i).
  rewrite lookup_empty. destruct (decide (0 <= i < 0 + nRepositories)), (decide (i < nRepositories)); done || lia.
Qed.

Lemma to_results_spec (m : Model (VectorModel := VectorModel)) (scores : list (DocumentScore (float64 := float64)))
    (acc res : list (RepositoryScore (float64 := float64))) :
  to_results m scores acc = Some res <->
  exists res', res = (acc ++ res')%list /\
    Forall2 (fun s r => repository_at m (DocumentID s) = Some (Repository r) /\
                        Score r = DocScore s) scores res'.
Proof.
  revert acc. induction scores as [|s scores IH]; intros acc; simpl.
  - split.
    + intros [= <-]. exists []. by rewrite app_nil_r.
    + intros (res' & -> & Hf). apply Forall2_nil_inv_l in Hf as ->. by rewrite app_nil_r.
  - destruct (repository_at m (DocumentID s)) as [r|] eqn:Hr.
    + rewrite IH. split.
      * intros (res' & -> & Hf). exists ({| Repository := r; Score := DocScore s |} :: res').
        rewrite <-app_assoc. split; [done|]. constructor; [|done]. simpl. done.
      * intros (res' & -> & Hf). apply Forall2_cons_inv_l in Hf as (y & res'' & [Hy Hsc] & Hf & ->).
        exists res''. split; [|done]. rewrite <-app_assoc. simpl. rewrite Hr in Hy.
        injection Hy as Hy. destruct y as [yr ys]. simpl in Hy, Hsc. by subst.
    + split; [discriminate|]. intros (res' & _ & Hf).
      apply Forall2_cons_inv_l in Hf as (y & _ & [Hy _] & _). congruence.
Qed.

(** Recommend succeeds exactly when the vector model's ranking succeeds
    and every returned document index is a valid position; the result then
    has one entry per ranked document, in the same order, naming the
    identifier stored at that index and carrying the same score. *)
Theorem Recommend_ok_iff (m : Model (VectorModel := VectorModel)) (items : list string) (n : Z)
    (res : list (RepositoryScore (float64 := float64))) :
  Recommend vmRecommend m items n = Ok res <->
  exists scores, vmRecommend (vm m) (seenDocs m items) n = inr scores /\
    Forall2 (fun s r => (0 <= DocumentID s)%Z /\
                        repositories m !! Z.to_nat (DocumentID s) = Some (Repository r) /\
                        Score r = DocScore s) scores res.
Proof.
  unfold Recommend. destruct (vmRecommend (vm m) (seenDocs m items) n) as [e|scores].
  - split; [discriminate|]. by intros (scores & ? & _).
  - assert (Hrel : forall (s : DocumentScore (float64 := float64)) (r : RepositoryScore (float64 := float64)), (repository_at m (DocumentID s) = Some (Repository r) /\ Score r = DocScore s) <->
              ((0 <= DocumentID s)%Z /\ repositories m !! Z.to_nat (DocumentID s) = Some (Repository r) /\
               Score r = DocScore s)).
    { intros s r. unfold repository_at. destruct (decide (0 <= DocumentID s)%Z); naive_solver. }
    split.
    + destruct (to_results m scores []) as [res'|] eqn:Ht; [|discriminate]. intros [= <-].
      apply to_results_spec in Ht as (res'' & -> & Hf). exists scores. split; [done|].
      simpl. eapply Forall2_impl; [exact Hf|]. intros s r. apply Hrel.
    + intros (scores' & [= <-] & Hf).
      assert (Ht : to_results m scores [] = Some res).
      { apply to_results_spec. exists res. split; [done|].
        eapply Forall2_impl; [exact Hf|]. intros s r. apply Hrel. }
      by rewrite Ht.
Qed.

(** Recommend panics exactly when the vector model's ranking succeeds but
    returns some document index outside [0, len(repositories)). *)
Theorem Recommend_panic_iff (m : Model (VectorModel := VectorModel)) (items : list string) (n : Z) :
  Recommend vmRecommend m items n = Panic <->
  exists scores, vmRecommend (vm m) (seenDocs m items) n = inr scores /\
    Exists (fun s => (DocumentID s < 0)%Z \/ length (repositories m) <= Z.to_nat (DocumentID s)) scores.
Proof.
  unfold Recommend. destruct (vmRecommend (vm m) (seenDocs m items) n) as [e|scores].
  - split; [discriminate|]. by intros (scores & ? & _).
  - assert (Hnone : forall acc, to_results m scores acc = None <->
              Exists (fun s => (DocumentID s < 0)%Z \/ length (repositories m) <= Z.to_nat (DocumentID s)) scores).
    { induction scores as [|s scores IH]; intros acc; simpl.
      - split; [discriminate|]. intros Hx. inversion Hx.
      - rewrite Exists_cons. unfold repository_at.
        destruct (decide (0 <= DocumentID s)%Z) as [Hz|Hz].
        + destruct (repositories m !! Z.to_nat (DocumentID s)) as [r|] eqn:Hr.
          * rewrite IH. apply lookup_lt_Some in Hr. split; [by right|]. intros [[?|?]|?]; [lia|lia|done].
          * apply lookup_ge_None in Hr. split; [intros _; left; by right|done].
        + split; [intros _; left; left; lia|done]. }
    split.
    + destruct (to_results m scores []) eqn:Ht; [discriminate|]. intros _. exists scores.
      split; [done|]. by apply (Hnone []).
    + intros (scores' & [= <-] & Hex). apply (Hnone []) in Hex. by rewrite Hex.
Qed.

(** The feedback set of a concatenation is the union of the feedback sets
    of its parts. *)
Theorem seenDocs_app (m : Model (VectorModel := VectorModel)) (l1 l2 : list string) :
  seenDocs m (l1 ++ l2) = seenDocs m l1 ∪ seenDocs m l2.
Proof.
  apply set_eq. intros i. rewrite elem_of_union, !elem_of_seenDocs. setoid_rewrite elem_of_app.
  naive_solver.
Qed.

(** Recommend treats an input with no known identifier like an empty
    input: both rank with an empty feedback set and return the same. *)
Theorem Recommend_unknown_like_empty (m : Model (VectorModel := VectorModel)) (items : list string) (n : Z) :
  (forall r, r ∈ items -> repositoryIDs m !! r = None) ->
  seenDocs m items = ∅ /\ Recommend vmRecommend m items n = Recommend vmRecommend m [] n.
Proof.
  intros Hnone.
  assert (Hs : seenDocs m items = ∅).
  { apply set_eq. intros i. rewrite elem_of_seenDocs. split; [|set_solver].
    intros (r & Hr & Hi). rewrite Hnone in Hi by done. discriminate. }
  split; [done|]. unfold Recommend. by rewrite Hs.
Qed.


End LoaderProps.

(** * Properties of the HTTP handlers *)

Section HandlerProps.

Context {float64 VectorModel VMError Body : Type}.
Context (vmRecommend : VectorModel -> gset nat -> Z -> VMError + list (DocumentScore (float64 := float64))).
Context (gitHubClientID gitHubClientSecret : string).
Context (newRequest : string -> string -> option string).
Context (clientDo : string -> string -> list (string * string) -> option string -> string + Body).
Context (decodeUser : Body -> string + gitHubUserResponse).
Context (decodeStarred : Body -> string + list gitHubStarredResponse).
Context (decodeToken : Body -> string + gitHubAccessTokenResponse).
Context (executeRecs : recommendationsTemplateVars (float64 := float64) -> option string).
Context (fmtErr : VMError -> string).
Context (QueryEscape : string -> string).
Context (now : Z).

Local Abbreviation home_ := (home vmRecommend gitHubClientID newRequest clientDo decodeUser
                            decodeStarred executeRecs fmtErr).
Local Abbreviation authenticatedUser_ := (authenticatedUser newRequest clientDo decodeUser).
Local Abbreviation starred_ := (starred newRequest clientDo decodeStarred).
Local Abbreviation callback_ := (callback (float64 := float64) gitHubClientID gitHubClientSecret newRequest clientDo
                                decodeToken QueryEscape now).

(** Without a "token" cookie, home renders the home page with the client id
    and no error text, whatever the model and the GitHub client. *)
Theorem home_without_token (model : option (Model (VectorModel := VectorModel))) (r : HttpRequest) :
  token_cookie r = None ->
  home_ model r = Some [ExecuteHome {| ClientID := gitHubClientID; HomeErr := "" |}].
Proof. intros Hr. unfold home, authenticatedUser, gitHubAuthenticatedRequest. by rewrite Hr. Qed.

(** When GitHub answers the user request with a non-empty error field,
    home renders the home page showing "Error from GitHub: " and that
    error. *)
Theorem home_github_user_error (model : option (Model (VectorModel := VectorModel))) (r : HttpRequest)
    (tok : string) (b : Body) (res : gitHubUserResponse) :
  token_cookie r = Some tok ->
  newRequest "GET" (gitHubAuthenticatedUserURL ++ "?access_token=" ++ tok) = None ->
  clientDo "GET" (gitHubAuthenticatedUserURL ++ "?access_token=" ++ tok)
    [("Accept", "application/json")] None = inr b ->
  decodeUser b = inr res -> userError res <> "" ->
  home_ model r = Some [ExecuteHome {| ClientID := gitHubClientID;
                                       HomeErr := "Error from GitHub: " ++ userError res |}].
Proof.
  intros Hr Hn Hc Hd He. unfold home, authenticatedUser, gitHubAuthenticatedRequest.
  rewrite Hr, Hn, Hc, Hd. apply String.eqb_neq in He. rewrite He. simpl. done.
Qed.

(** home renders the recommendations page for [vars] exactly when the
    model is loaded, the user and the starred list were fetched, and
    Recommend on that starred list with n = 10 returned [Recs vars]. *)
Theorem home_recs_page_iff (model : option (Model (VectorModel := VectorModel))) (r : HttpRequest)
    (vars : recommendationsTemplateVars) :
  (exists acts, home_ model r = Some acts /\ ExecuteRecs vars ∈ acts) <->
  exists m, model = Some m /\ authenticatedUser_ r = inr (User vars) /\
    starred_ r = inr (Stars vars) /\ Recommend vmRecommend m (Stars vars) 10 = Ok (Recs vars).
Proof.
  unfold home. destruct (authenticatedUser_ r) as [e|user].
  - split; [intros (acts & [= <-] & Hin); set_solver | intros (m & _ & [=] & _)].
  - destruct (starred_ r) as [e|stars].
    + split; [intros (acts & [= <-] & Hin); set_solver | intros (m & _ & _ & [=] & _)].
    + destruct model as [m|].
      * destruct (Recommend vmRecommend m stars 10) as [recs|e|] eqn:Hrec.
        -- split.
           ++ intros (acts & [= <-] & Hin). apply elem_of_cons in Hin as [[= ->]|Hin].
              ** exists m. simpl. rewrite Hrec. done.
              ** revert Hin; simpl; case_match; set_solver.
           ++ intros (m' & [= <-] & [= Hu] & [= Hs] & Hr). subst user stars.
              rewrite Hrec in Hr. injection Hr as Hr.
              destruct vars. simpl in *. subst. eexists. split; [reflexivity|]. left.
        -- split; [intros (acts & [= <-] & Hin); set_solver|].
           intros (m' & [= <-] & [= Hu] & [= Hs] & Hr). subst stars. congruence.
        -- split; [intros (acts & [=] & _)|].
           intros (m' & [= <-] & [= Hu] & [= Hs] & Hr). subst stars. congruence.
      * split; [intros (acts & [= <-] & Hin); set_solver | intros (m & [=] & _)].
Qed.

(** home renders the home page exactly when fetching the user or the
    starred list failed; the page carries the client id and the error
    text, except that the "Unauthorized" of a missing cookie is blanked. *)
Theorem home_error_page_iff (model : option (Model (VectorModel := VectorModel))) (r : HttpRequest)
    (hv : homeTemplateVars) :
  (exists acts, home_ model r = Some acts /\ ExecuteHome hv ∈ acts) <->
  ClientID hv = gitHubClientID /\
  exists e, (authenticatedUser_ r = inl e \/
             exists user, authenticatedUser_ r = inr user /\ starred_ r = inl e) /\
    HomeErr hv = (if String.eqb e "Unauthorized" then "" else e).
Proof.
  unfold home. destruct (authenticatedUser_ r) as [e|user].
  - split.
    + intros (acts & [= <-] & Hin). apply list_elem_of_singleton in Hin as [= ->].
      split; [done|]. exists e. split; [by left|done].
    + intros (Hid & e' & [[= <-]|(u & [=] & _)] & Herr). eexists. split; [reflexivity|].
      apply list_elem_of_singleton. destruct hv. simpl in *. by subst.
  - destruct (starred_ r) as [e|stars].
    + split.
      * intros (acts & [= <-] & Hin). apply list_elem_of_singleton in Hin as [= ->].
        split; [done|]. exists e. split; [right; eauto|done].
      * intros (Hid & e' & [[=]|(u & _ & [= <-])] & Herr). eexists. split; [reflexivity|].
        apply list_elem_of_singleton. destruct hv. simpl in *. by subst.
    + split.
      * intros (acts & Hh & Hin). destruct model as [m|].
        -- destruct (Recommend vmRecommend m stars 10) as [recs|e|].
           ++ injection Hh as <-. revert Hin. simpl. case_match; set_solver.
           ++ injection Hh as <-. set_solver.
           ++ discriminate.
        -- injection Hh as <-. set_solver.
      * intros (_ & e & [[=]|(u & _ & [=])] & _).
Qed.

(** callback sets a cookie exactly when the token exchange succeeded with
    an empty error field; the cookie is then "token" holding the access
    token, expiring ten minutes after now, and the only other action is a
    302 redirect to "/". *)
Theorem callback_sets_cookie_iff (r : HttpRequest) (c : Cookie) :
  SetCookie (float64 := float64) c ∈ callback_ r <->
  exists resp result,
    newRequest "POST" gitHubAccessTokenURL = None /\
    clientDo "POST" gitHubAccessTokenURL
      [("Content-Type", "application/x-www-form-urlencoded"); ("Accept", "application/json")]
      (Some (values_Encode QueryEscape [("client_id", gitHubClientID);
                                        ("client_secret", gitHubClientSecret);
                                        ("code", form_code r)])) = inr resp /\
    decodeToken resp = inr result /\ tokenError result = "" /\
    c = {| Name := "token"; Value := AccessToken result; Expires := (now + 600000000000)%Z |} /\
    callback_ r = [SetCookie c; Redirect "/" 302%Z].
Proof.
  unfold callback. destruct (newRequest "POST" gitHubAccessTokenURL) as [e|] eqn:Hn.
  - split; [set_solver|]. intros (? & ? & [=] & _).
  - destruct (clientDo _ _ _ _) as [e|resp] eqn:Hc.
    + split; [set_solver|]. intros (? & ? & _ & [=] & _).
    + destruct (decodeToken resp) as [e|result] eqn:Hd.
      * split; [set_solver|]. intros (? & ? & _ & [= <-] & Hd' & _). congruence.
      * destruct (String.eqb (tokenError result) "") eqn:He; simpl.
        -- apply String.eqb_eq in He. split.
           ++ intros Hin. apply elem_of_cons in Hin as [[= ->]|Hin]; [|set_solver].
              exists resp, result. repeat split; try done.
           ++ intros (resp' & result' & _ & [= <-] & Hd' & _ & -> & _).
              rewrite Hd in Hd'. injection Hd' as <-. left.
        -- split; [set_solver|]. intros (resp' & result' & _ & [= <-] & Hd' & He' & _).
           rewrite Hd in Hd'. injection Hd' as <-. rewrite He' in He. discriminate.
Qed.

End HandlerProps.

(** * Witnesses of the further properties *)

Lemma ReadModel_identifiers_roundtrip_witness :
  exists m, ReadModel sample_newVectorModel (sample_files 2 (join_lines ["x"; "y"] ++ "junk")) = Ok m /\
    repositories m = ["x"; "y"] /\ vm m = tt.
Proof.
  destruct (ReadModel_identifiers_roundtrip sample_newVectorModel
              (sample_files 2 (join_lines ["x"; "y"] ++ "junk"))
              {| Shape := [2; 1]; GetFloat64 := Some (replicate 2 0%Z) |}
              ["x"; "y"] 1 [] (replicate 2 0%Z) "junk") as (docs & _ & Hm).
  - constructor; [reflexivity|constructor; [reflexivity|constructor]].
  - reflexivity.
  - reflexivity.
  - reflexivity.
  - simpl. lia.
  - reflexivity.
  - apply Hm. reflexivity.
Defined.

Lemma ReadModel_identifiers_no_newline_witness :
  Forall (fun r => count_nl r = 0) (repositories sample_dup_model).
Proof.
  apply (ReadModel_identifiers_no_newline sample_newVectorModel
           (sample_files 3 (join_lines ["a"; "b"; "a"]))).
  vm_compute. reflexivity.
Defined.

Lemma ReadModel_identifier_map_shape_witness :
  Some (length (repositories sample_dup_model)) = Some 3 /\
  dom (repositoryIDs sample_dup_model) = list_to_set (repositories sample_dup_model).
Proof.
  destruct (ReadModel_identifier_map_shape sample_newVectorModel
              (sample_files 3 (join_lines ["a"; "b"; "a"])) sample_dup_model
              {| Shape := [3; 1]; GetFloat64 := Some (replicate 3 0%Z) |}) as (H1 & H2 & _).
  - vm_compute. reflexivity.
  - reflexivity.
  - split; [exact H1|exact H2].
Defined.

Lemma ReadModel_seenDocs_valid_witness :
  2 < length (repositories sample_dup_model) /\
  exists r, repositories sample_dup_model !! 2 = Some r /\ r ∈ ["a"].
Proof.
  apply (ReadModel_seenDocs_valid sample_newVectorModel
           (sample_files 3 (join_lines ["a"; "b"; "a"])) sample_dup_model ["a"] 2).
  - vm_compute. reflexivity.
  - apply elem_of_seenDocs. exists "a". split; [set_solver|vm_compute; reflexivity].
Defined.

Lemma ReadModel_ignores_trailing_content_witness :
  ReadModel sample_newVectorModel
    {| item_factors_npy := item_factors_npy (sample_files 2 (join_lines ["a"; "b"]));
       items_csv := Some (join_lines ["a"; "b"] ++ "c" ++ String newline "") |} =
  ReadModel sample_newVectorModel (sample_files 2 (join_lines ["a"; "b"])).
Proof.
  apply (ReadModel_ignores_trailing_content sample_newVectorModel
           (sample_files 2 (join_lines ["a"; "b"]))
           {| Shape := [2; 1]; GetFloat64 := Some (replicate 2 0%Z) |} 2 [1]);
    try reflexivity.
Defined.

Lemma ReadModel_panics_witness :
  ReadModel sample_newVectorModel
    {| item_factors_npy := Some {| Shape := [3]; GetFloat64 := Some [] |}; items_csv := None |} = Panic.
Proof.
  destruct (ReadModel_panics sample_newVectorModel
              {| item_factors_npy := Some {| Shape := [3]; GetFloat64 := Some [] |}; items_csv := None |}
              {| Shape := [3]; GetFloat64 := Some [] |}) as [H _]; [reflexivity|].
  apply H. simpl. lia.
Defined.

Lemma ReadModel_docs_rows_witness :
  exists docs, sample_newVectorModel docs confidence regularization = inr (vm sample_dup_model) /\
    forall i, docs !! i = if decide (i < 3) then Some (take 1 (drop (i * 1) (replicate 3 0%Z))) else None.
Proof.
  apply (ReadModel_docs_rows sample_newVectorModel (sample_files 3 (join_lines ["a"; "b"; "a"]))
           sample_dup_model {| Shape := [3; 1]; GetFloat64 := Some (replicate 3 0%Z) |} 3 1 []).
  - vm_compute. reflexivity.
  - reflexivity.
  - reflexivity.
  - reflexivity.
Defined.

Lemma Recommend_unknown_like_empty_witness :
  seenDocs sample_dup_model ["zz"; "q"] = ∅ /\
  Recommend sample_vmRecommend sample_dup_model ["zz"; "q"] 10 =
  Recommend sample_vmRecommend sample_dup_model [] 10.
Proof.
  apply Recommend_unknown_like_empty. intros r Hr.
  apply elem_of_cons in Hr as [->|Hr]; [vm_compute; reflexivity|].
  apply list_elem_of_singleton in Hr as ->. vm_compute. reflexivity.
Defined.

Lemma home_without_token_witness :
  home sample_vmRecommend "cid" sample_newRequest sample_clientDo sample_decodeUser
    sample_decodeStarred sample_executeRecs sample_fmtErr (None : option (Model (VectorModel := unit)))
    {| token_cookie := None; form_code := "" |} =
  Some [ExecuteHome {| ClientID := "cid"; HomeErr := "" |}].
Proof. apply home_without_token. reflexivity. Defined.

Lemma home_github_user_error_witness :
  home sample_vmRecommend "cid" sample_newRequest sample_clientDo sample_decodeUser
    sample_decodeStarred sample_executeRecs sample_fmtErr (None : option (Model (VectorModel := unit)))
    {| token_cookie := Some "t"; form_code := "" |} =
  Some [ExecuteHome {| ClientID := "cid"; HomeErr := "Error from GitHub: bad credentials" |}].
Proof.
  apply (home_github_user_error sample_vmRecommend "cid" sample_newRequest sample_clientDo
           sample_decodeUser sample_decodeStarred sample_executeRecs sample_fmtErr None
           {| token_cookie := Some "t"; form_code := "" |} "t" tt
           {| userError := "bad credentials"; userLogin := "" |}); try reflexivity.
  discriminate.
Defined.

